(** * brainstorming-viz/Untitled.ipynb: the hover-tooltip scatter plot

    The notebook holds one code cell, a straight-line Python script that
    calls the plotting library bokeh:

      output_file -> ColumnDataSource -> HoverTool -> figure -> p.circle -> show

    The script is embedded as a computation in a small state-and-exception
    monad.  Python objects live in a store and are passed by reference, the
    way the script passes [source], [hover] and [p] around.  bokeh itself is
    an external dependency and no part of the repository: its functions are
    modelled from what the specification says of them (constructors keep
    their arguments, [circle] attaches a glyph renderer to the figure,
    [output_file] selects the output file, [show] emits the figure to it),
    and every library call may raise.  Those definitions say so in their
    comments; everything else follows the cell line by line. *)

From Stdlib Require Import ZArith Ascii String QArith.
From stdpp Require Import gmap strings list fin_maps.

Local Open Scope Z_scope.
Local Open Scope string_scope.
Local Open Scope list_scope.

(** ** Python values and the column data *)

(** The literals that occur in the columns: integers and strings. *)
Inductive pyval :=
  | PyInt (n : Z)
  | PyStr (s : string).

#[global] Instance pyval_eq_dec : EqDecision pyval.
Proof. solve_decision. Defined.

(** A column is a Python list. *)
Abbreviation column := (list pyval).

(** [dict(x=[...], y=[...], desc=[...], imgs=[...])]: a dictionary from
    column names to columns. *)
Abbreviation pydict := (gmap string column).

Definition x : column := [PyInt 1; PyInt 2; PyInt 3; PyInt 4; PyInt 5].
Definition y : column := [PyInt 2; PyInt 5; PyInt 8; PyInt 2; PyInt 7].
Definition desc : column := [PyStr "A"; PyStr "b"; PyStr "C"; PyStr "d"; PyStr "E"].
Definition imgs : column :=
  [ PyStr "http://bokeh.pydata.org/static/snake.jpg";
    PyStr "http://bokeh.pydata.org/static/snake2.png";
    PyStr "http://bokeh.pydata.org/static/snake3D.png";
    PyStr "http://bokeh.pydata.org/static/snake4_TheRevenge.png";
    PyStr "http://bokeh.pydata.org/static/snakebite.jpg" ].

(** The keyword arguments of [dict(...)], inserted in the order written. *)
Definition data : pydict :=
  <["imgs" := imgs]> (<["desc" := desc]> (<["y" := y]> (<["x" := x]> ∅))).

(** ** The tooltip template *)

Definition dq : string := String "034"%char EmptyString.
Definition nl : string := String "010"%char EmptyString.

(** The triple-quoted string passed as [tooltips=], line by line: it opens
    with a newline and closes with the indentation of the closing quotes. *)
Definition tooltips : string :=
  nl +:+
  "        <div>" +:+ nl +:+
  "            <div>" +:+ nl +:+
  "                <img" +:+ nl +:+
  "                    src=" +:+ dq +:+ "@imgs" +:+ dq +:+
       " height=" +:+ dq +:+ "42" +:+ dq +:+
       " alt=" +:+ dq +:+ "@imgs" +:+ dq +:+
       " width=" +:+ dq +:+ "42" +:+ dq +:+ nl +:+
  "                    style=" +:+ dq +:+
       "float: left; margin: 0px 15px 15px 0px;" +:+ dq +:+ nl +:+
  "                    border=" +:+ dq +:+ "2" +:+ dq +:+ nl +:+
  "                ></img>" +:+ nl +:+
  "            </div>" +:+ nl +:+
  "            <div>" +:+ nl +:+
  "                <span style=" +:+ dq +:+
       "font-size: 17px; font-weight: bold;" +:+ dq +:+ ">@desc</span>" +:+ nl +:+
  "                <span style=" +:+ dq +:+
       "font-size: 15px; color: #966;" +:+ dq +:+ ">[$index]</span>" +:+ nl +:+
  "            </div>" +:+ nl +:+
  "            <div>" +:+ nl +:+
  "                <span style=" +:+ dq +:+
       "font-size: 15px;" +:+ dq +:+ ">Location</span>" +:+ nl +:+
  "                <span style=" +:+ dq +:+
       "font-size: 10px; color: #696;" +:+ dq +:+ ">($x, $y)</span>" +:+ nl +:+
  "            </div>" +:+ nl +:+
  "        </div>" +:+ nl +:+
  "        ".

(** ** Objects, sessions and the world *)

(** A reference to a Python object: its position in the store. *)
Abbreviation ref := nat.

(** The only glyph the script draws. *)
Inductive glyph := Circle.

(** What [p.circle('x', 'y', size=20, source=source)] attaches to a figure:
    the glyph, the names of the columns that give the coordinates, the marker
    size and a reference to the data source. *)
Record glyph_renderer := GlyphRenderer {
  gr_glyph : glyph;
  gr_x : string;
  gr_y : string;
  gr_size : Z;
  gr_source : ref
}.

(** The attributes of a figure that the script sets; [figure(...)] starts
    with no glyph renderer. *)
Record figure_obj := Figure {
  plot_width : Z;
  plot_height : Z;
  tools : list ref;
  title : string;
  renderers : list glyph_renderer
}.

Inductive obj :=
  | ColumnDataSourceObj (d : pydict)
  | HoverToolObj (tips : string)
  | FigureObj (f : figure_obj).

(** A figure with every reference followed: what is handed to the renderer
    of the library when the figure is shown. *)
Record bound_renderer := BoundRenderer {
  br_glyph : glyph;
  br_x : string;
  br_y : string;
  br_size : Z;
  br_data : pydict
}.

Record document := Document {
  doc_width : Z;
  doc_height : Z;
  doc_title : string;
  doc_tools : list string;
  doc_renderers : list bound_renderer
}.

(** The calls the script makes into the library, with their arguments. *)
Inductive request :=
  | ReqImport (module : string) (names : list string)
  | ReqOutputFile (filename : string)
  | ReqColumnDataSource (d : pydict)
  | ReqHoverTool (tips : string)
  | ReqFigure (w h : Z) (tls : list ref) (ttl : string)
  | ReqCircle (fig : ref) (cx cy : string) (size : Z) (src : ref)
  | ReqShow (fig : ref).

(** Modelled from the spec: the effect of the library's [show], which is
    absent from the repository.  The spec has one output artifact, an HTML
    file that the library writes (and displays) under a file name; its
    content is the library's business, so the effect carries the document
    as the script configured it. *)
Inductive effect :=
  | WriteHtml (filename : string) (doc : document).

(** A Python exception: its class and its message. *)
Record exn := Exn { exn_class : string; exn_msg : string }.

(** The interpreter session: the object store, the output target selected by
    [output_file], the library calls made so far and the effects so far. *)
Record session := Session {
  heap : list obj;
  output : option string;
  calls : list request;
  effects : list effect
}.

Definition fresh_kernel : session :=
  {| heap := []; output := None; calls := []; effects := [] |}.

(** What is outside the script: command line, environment variables, files,
    and two things that belong to the library and are taken as parameters:
    the file name it falls back to when no output file was selected, and
    which of its calls fail (an unwritable path, a template it rejects, a
    module that is not installed). *)
Record world := World {
  argv : list string;
  environ : gmap string string;
  files : gmap string string;
  default_filename : string;
  raises : request -> option exn
}.

(** ** The monad of the script: state, exceptions, a read-only world *)

Inductive result (A : Type) :=
  | Ok (a : A) (s : session)
  | Raise (e : exn) (s : session).
Arguments Ok {A} a s.
Arguments Raise {A} e s.

Definition M (A : Type) : Type := world -> session -> result A.

Definition ret {A} (a : A) : M A := fun _ s => Ok a s.

(** Sequencing of two statements: without [try], an exception of the first
    ends the script. *)
Definition bind {A B} (m : M A) (k : A -> M B) : M B := fun w s =>
  match m w s with
  | Ok a s' => k a w s'
  | Raise e s' => Raise e s'
  end.

Notation "v <- m ;; k" := (bind m (fun v => k))
  (at level 100, m at next level, right associativity).
Notation "m ;; k" := (bind m (fun _ => k))
  (at level 100, right associativity).

Definition final_session {A} (r : result A) : session :=
  match r with Ok _ s => s | Raise _ s => s end.

(** ** The library calls *)

Definition log_call (c : request) (s : session) : session :=
  {| heap := heap s; output := output s;
     calls := calls s ++ [c]; effects := effects s |}.

(** A call into the library: it is recorded, then the library either raises
    or does its work. *)
Definition libcall {A} (c : request) (body : M A) : M A := fun w s =>
  match raises w c with
  | Some e => Raise e (log_call c s)
  | None => body w (log_call c s)
  end.

(** A constructor returns a reference to a new object. *)
Definition alloc (o : obj) : M ref := fun _ s =>
  Ok (length (heap s))
     {| heap := heap s ++ [o]; output := output s;
        calls := calls s; effects := effects s |}.

Definition set_output (filename : string) : M unit := fun _ s =>
  Ok tt {| heap := heap s; output := Some filename;
           calls := calls s; effects := effects s |}.

Definition emit (e : effect) : M unit := fun _ s =>
  Ok tt {| heap := heap s; output := output s;
           calls := calls s; effects := effects s ++ [e] |}.

(** A method called on, or a plot made of, something that is not a figure;
    no run of the script gets there, its references are the ones the
    constructors returned. *)
Definition not_a_figure : exn := Exn "AttributeError" "not a figure".

(** [from module import names]: a request to the runtime that can fail. *)
Definition import_from (module : string) (names : list string) : M unit :=
  libcall (ReqImport module names) (ret tt).

(** Modelled from the spec: bokeh's [output_file], absent from the
    repository; it selects the HTML file that [show] writes. *)
Definition output_file (filename : string) : M unit :=
  libcall (ReqOutputFile filename) (set_output filename).

(** Modelled from the spec: bokeh's [ColumnDataSource], absent from the
    repository; the record set is the columns it is given, held in memory. *)
Definition ColumnDataSource (d : pydict) : M ref :=
  libcall (ReqColumnDataSource d) (alloc (ColumnDataSourceObj d)).

(** Modelled from the spec: bokeh's [HoverTool], absent from the
    repository; it carries the tooltip template. *)
Definition HoverTool (tips : string) : M ref :=
  libcall (ReqHoverTool tips) (alloc (HoverToolObj tips)).

(** Modelled from the spec: bokeh's [figure], absent from the repository; a
    plot canvas with its size, title and interaction tools. *)
Definition figure (w h : Z) (tls : list ref) (ttl : string) : M ref :=
  libcall (ReqFigure w h tls ttl)
    (alloc (FigureObj {| plot_width := w; plot_height := h; tools := tls;
                         title := ttl; renderers := [] |})).

Definition add_renderer (r : glyph_renderer) (f : figure_obj) : figure_obj :=
  {| plot_width := plot_width f; plot_height := plot_height f;
     tools := tools f; title := title f;
     renderers := renderers f ++ [r] |}.

(** Modelled from the spec: bokeh's [circle] method, absent from the
    repository.  [p.circle(cx, cy, size=size, source=src)] attaches one
    circular-marker renderer bound to the data source; the figure [p] is
    updated in place. *)
Definition circle (p : ref) (cx cy : string) (size : Z) (src : ref) : M unit :=
  libcall (ReqCircle p cx cy size src) (fun _ s =>
    match heap s !! p with
    | Some (FigureObj f) =>
        Ok tt {| heap := <[p := FigureObj (add_renderer (GlyphRenderer Circle cx cy size src) f)]> (heap s);
                 output := output s; calls := calls s; effects := effects s |}
    | _ => Raise not_a_figure s
    end).

Definition tool_template (h : list obj) (t : ref) : option string :=
  match h !! t with
  | Some (HoverToolObj tips) => Some tips
  | _ => None
  end.

Definition bind_renderer (h : list obj) (r : glyph_renderer) : option bound_renderer :=
  match h !! gr_source r with
  | Some (ColumnDataSourceObj d) =>
      Some (BoundRenderer (gr_glyph r) (gr_x r) (gr_y r) (gr_size r) d)
  | _ => None
  end.

(** The figure [p] as the store has it when it is shown. *)
Definition snapshot (h : list obj) (p : ref) : option document :=
  match h !! p with
  | Some (FigureObj f) =>
      ts ← mapM (tool_template h) (tools f);
      rs ← mapM (bind_renderer h) (renderers f);
      Some (Document (plot_width f) (plot_height f) (title f) ts rs)
  | _ => None
  end.

(** Modelled from the spec: bokeh's [show], absent from the repository.
    [show(p)] has the library write the figure to the output file of the
    session, or to the library's default file when none was selected. *)
Definition show (p : ref) : M unit :=
  libcall (ReqShow p) (fun w s =>
    match snapshot (heap s) p with
    | Some doc => emit (WriteHtml (default (default_filename w) (output s)) doc) w s
    | None => Raise not_a_figure s
    end).

(** ** The script *)

Definition script : M unit :=
  import_from "bokeh.plotting" ["figure"; "output_file"; "show"; "ColumnDataSource"] ;;
  import_from "bokeh.models" ["HoverTool"] ;;
  output_file "toolbar.html" ;;
  source <- ColumnDataSource data ;;
  hover <- HoverTool tooltips ;;
  p <- figure 400 400 [hover] "Mouse over the dots" ;;
  circle p "x" "y" 20 source ;;
  show p.

(** The script cut after its fourth statement: up to the construction of
    the data source, and from there on. *)
Definition construct_source : M ref :=
  import_from "bokeh.plotting" ["figure"; "output_file"; "show"; "ColumnDataSource"] ;;
  import_from "bokeh.models" ["HoverTool"] ;;
  output_file "toolbar.html" ;;
  ColumnDataSource data.

Definition after_source (source : ref) : M unit :=
  hover <- HoverTool tooltips ;;
  p <- figure 400 400 [hover] "Mouse over the dots" ;;
  circle p "x" "y" 20 source ;;
  show p.

(** The calls of the script in order, when the store holds [n] objects at
    its start: [source], [hover] and [p] are the next three references. *)
Definition script_calls (n : nat) : list request :=
  [ ReqImport "bokeh.plotting" ["figure"; "output_file"; "show"; "ColumnDataSource"];
    ReqImport "bokeh.models" ["HoverTool"];
    ReqOutputFile "toolbar.html";
    ReqColumnDataSource data;
    ReqHoverTool tooltips;
    ReqFigure 400 400 [(n + 1)%nat] "Mouse over the dots";
    ReqCircle (n + 2)%nat "x" "y" 20 n;
    ReqShow (n + 2)%nat ].

(** The figure the script shows, with its references followed. *)
Definition circle_renderer : bound_renderer :=
  {| br_glyph := Circle; br_x := "x"; br_y := "y"; br_size := 20; br_data := data |}.

Definition plot_document : document :=
  {| doc_width := 400; doc_height := 400; doc_title := "Mouse over the dots";
     doc_tools := [tooltips]; doc_renderers := [circle_renderer] |}.

(** The objects the script adds to a store of [n] objects. *)
Definition script_objects (n : nat) : list obj :=
  [ ColumnDataSourceObj data;
    HoverToolObj tooltips;
    FigureObj {| plot_width := 400; plot_height := 400; tools := [(n + 1)%nat];
                 title := "Mouse over the dots";
                 renderers := [GlyphRenderer Circle "x" "y" 20 n] |} ].

(** A library that rejects no call. *)
Definition healthy (w : world) : Prop := forall c, raises w c = None.

(** The first call of a list that the library fails, with its position. *)
Fixpoint first_failure (w : world) (cs : list request) : option (nat * exn) :=
  match cs with
  | [] => None
  | c :: cs' =>
      match raises w c with
      | Some e => Some (0%nat, e)
      | None => prod_map S id <$> first_failure w cs'
      end
  end.

(** Two worlds for examples: one where nothing fails, one with a command
    line, an environment, a configuration file and a read-only directory. *)
Definition quiet : world :=
  {| argv := []; environ := ∅; files := ∅; default_filename := "Untitled.html";
     raises := fun _ => None |}.

Definition permission_denied : exn := Exn "PermissionError" "toolbar.html".

Definition read_only_dir : world :=
  {| argv := ["--out"; "other.html"];
     environ := <["BOKEH_RESOURCES" := "inline"]> ∅;
     files := <["bokeh.yaml" := "output: other.html"]> ∅;
     default_filename := "other.html";
     raises := fun c => match c with ReqShow _ => Some permission_denied | _ => None end |}.

Definition noisy : world :=
  {| argv := argv read_only_dir; environ := environ read_only_dir;
     files := files read_only_dir; default_filename := "other.html";
     raises := fun _ => None |}.

(** A template the library rejects: the script stops at [HoverTool], before
    the figure is made. *)
Definition bad_template : world :=
  {| argv := []; environ := ∅; files := ∅; default_filename := "Untitled.html";
     raises := fun c => match c with
                        | ReqHoverTool _ => Some (Exn "ValueError" "tooltips")
                        | _ => None
                        end |}.

(** ** Rows, markers and the tooltip placeholders *)

(** The data of the data-source object behind a reference. *)
Definition record_set (s : session) (src : ref) : option pydict :=
  match heap s !! src with
  | Some (ColumnDataSourceObj d) => Some d
  | _ => None
  end.

(** Row [i] of a record set with the four columns of the script. *)
Definition row (d : pydict) (i : nat) : option (pyval * pyval * pyval * pyval) :=
  xi ← d !! "x" ≫= (.!! i);
  yi ← d !! "y" ≫= (.!! i);
  di ← d !! "desc" ≫= (.!! i);
  ui ← d !! "imgs" ≫= (.!! i);
  Some (xi, yi, di, ui).

(** Exchange of the entries at positions [i] and [j] of a list, and of rows
    [i] and [j] of a record set (every column at once). *)
Definition swap {A} (i j : nat) (l : list A) : list A :=
  match l !! i, l !! j with
  | Some a, Some b => <[i := b]> (<[j := a]> l)
  | _, _ => l
  end.

Definition swap_rows (i j : nat) (d : pydict) : pydict := swap i j <$> d.

(** A drawn marker: the glyph, where it is and how large. *)
Record marker := Marker {
  mk_glyph : glyph;
  mk_x : pyval;
  mk_y : pyval;
  mk_size : Z
}.

(** Modelled from the spec: the renderer of the library, absent from the
    repository; it draws each row as a point on the figure, one marker per
    row at the coordinates its two columns give for that row, and nothing
    when a column is missing. *)
Definition render (r : bound_renderer) : list marker :=
  match br_data r !! br_x r, br_data r !! br_y r with
  | Some xs, Some ys =>
      zip_with (fun a b => Marker (br_glyph r) a b (br_size r)) xs ys
  | _, _ => []
  end.

Definition with_data (d : pydict) (r : bound_renderer) : bound_renderer :=
  {| br_glyph := br_glyph r; br_x := br_x r; br_y := br_y r;
     br_size := br_size r; br_data := d |}.

(** All markers of a document, and the document with rows [i] and [j]
    exchanged in the data of every renderer. *)
Definition markers (doc : document) : list marker := doc_renderers doc ≫= render.

Definition swap_document_rows (i j : nat) (doc : document) : document :=
  {| doc_width := doc_width doc; doc_height := doc_height doc;
     doc_title := doc_title doc; doc_tools := doc_tools doc;
     doc_renderers :=
       (fun r => with_data (swap_rows i j (br_data r)) r) <$> doc_renderers doc |}.

(** A placeholder of a tooltip template: [@name] stands for the value of
    column [name] at the hovered row, [$name] for a special variable of the
    library. *)
Inductive placeholder :=
  | Field (name : string)
  | Special (name : string).

#[global] Instance placeholder_eq_dec : EqDecision placeholder.
Proof. solve_decision. Defined.

(** Letters, digits and the underscore make up a name. *)
Definition is_word (c : ascii) : bool :=
  let n := N_of_ascii c in
  ((48 <=? n) && (n <=? 57) || (65 <=? n) && (n <=? 90)
   || (97 <=? n) && (n <=? 122) || (n =? 95))%N.

Definition sigil (c : ascii) : option (string -> placeholder) :=
  if decide (c = "@"%char) then Some Field
  else if decide (c = "$"%char) then Some Special
  else None.

Definition start (c : ascii) : option ((string -> placeholder) * string) :=
  (fun mk => (mk, EmptyString)) <$> sigil c.

Definition flush (cur : option ((string -> placeholder) * string)) : list placeholder :=
  match cur with
  | Some (mk, name) => if decide (name = EmptyString) then [] else [mk name]
  | None => []
  end.

(** Modelled from the spec: the template reader of the library, absent from
    the repository; the template is markup with named placeholders, a sigil
    followed by a name.  One pass over the template; [cur] is the
    placeholder being read. *)
Fixpoint scan (cur : option ((string -> placeholder) * string)) (s : string)
  : list placeholder :=
  match s with
  | EmptyString => flush cur
  | String c s' =>
      match cur with
      | Some (mk, name) =>
          if is_word c then scan (Some (mk, name +:+ String c EmptyString)) s'
          else flush cur ++ scan (start c) s'
      | None => scan (start c) s'
      end
  end.

Definition placeholders (template : string) : list placeholder := scan None template.

(** Where the mouse is: over which row, at which coordinates. *)
Record hover_point := HoverPoint {
  hp_index : nat;
  hp_x : Q;
  hp_y : Q
}.

Inductive tipval :=
  | TipData (v : pyval)
  | TipIndex (i : nat)
  | TipCoord (q : Q).

(** Modelled from the spec: the special variables of the library's hover
    tool, absent from the repository: the row index and the coordinates
    under the mouse. *)
Definition special_vars : list string := ["index"; "x"; "y"].

(** Modelled from the spec: the substitution the library does per row when
    the tooltip is shown, absent from the repository: a column placeholder
    becomes the entry of that column at the hovered row, a special variable
    its value at the mouse. *)
Definition resolve (d : pydict) (pt : hover_point) (ph : placeholder) : option tipval :=
  match ph with
  | Field name => v ← d !! name ≫= (.!! hp_index pt); Some (TipData v)
  | Special name =>
      if decide (name = "index") then Some (TipIndex (hp_index pt))
      else if decide (name = "x") then Some (TipCoord (hp_x pt))
      else if decide (name = "y") then Some (TipCoord (hp_y pt))
      else None
  end.

(** ** Strings the script hands to the library *)

Fixpoint contains (pat s : string) : bool :=
  String.prefix pat s ||
  match s with
  | EmptyString => false
  | String _ s' => contains pat s'
  end.

Definition mentions_url (s : string) : bool := contains "://" s.

Definition pyval_strings (v : pyval) : list string :=
  match v with PyStr s => [s] | PyInt _ => [] end.

Definition dict_strings (d : pydict) : list string :=
  map_to_list d ≫= (fun kv => kv.1 :: (kv.2 ≫= pyval_strings)).

Definition request_strings (c : request) : list string :=
  match c with
  | ReqImport module names => module :: names
  | ReqOutputFile filename => [filename]
  | ReqColumnDataSource d => dict_strings d
  | ReqHoverTool tips => [tips]
  | ReqFigure _ _ _ ttl => [ttl]
  | ReqCircle _ cx cy _ _ => [cx; cy]
  | ReqShow _ => []
  end.

(** The session once the first [k] calls of the script have returned, from
    a session [s0] whose store holds [n] objects. *)
Definition objects_after (n k : nat) : list obj :=
  match k with
  | 0%nat | 1%nat | 2%nat | 3%nat => []
  | 4%nat => [ColumnDataSourceObj data]
  | 5%nat => [ColumnDataSourceObj data; HoverToolObj tooltips]
  | 6%nat => [ColumnDataSourceObj data; HoverToolObj tooltips;
              FigureObj {| plot_width := 400; plot_height := 400;
                           tools := [(n + 1)%nat];
                           title := "Mouse over the dots"; renderers := [] |}]
  | _ => script_objects n
  end.

Definition progress (k : nat) (s0 : session) : session :=
  let n := length (heap s0) in
  {| heap := heap s0 ++ objects_after n k;
     output := if decide (k <= 2)%nat then output s0 else Some "toolbar.html";
     calls := calls s0 ++ take k (script_calls n);
     effects := if decide (k <= 7)%nat then effects s0
                else effects s0 ++ [WriteHtml "toolbar.html" plot_document] |}.

(** The session when call number [k] (from 0) raises: the call was made,
    its work was not done. *)
Definition interrupted (k : nat) (s0 : session) : session :=
  {| heap := heap (progress k s0);
     output := output (progress k s0);
     calls := calls s0 ++ take (S k) (script_calls (length (heap s0)));
     effects := effects s0 |}.

(** A computation keeps the data source behind [src]: whether it returns or
    raises, the record set is afterwards what it was before. *)
Definition keeps {A} (src : ref) (d : pydict) (m : M A) : Prop :=
  forall w s,
    record_set s src = Some d ->
    record_set (final_session (m w s)) src = Some d.

(** * Properties *)

(** ** The monad and the store *)

Lemma bind_libcall {A B} (c : request) (body : M A) (k : A -> M B) w s :
  bind (libcall c body) k w s =
    match raises w c with
    | Some e => Raise e (log_call c s)
    | None => bind body k w (log_call c s)
    end.
Proof. unfold bind, libcall. destruct (raises w c); reflexivity. Qed.

Lemma bind_assoc {A B C} (m : M A) (f : A -> M B) (g : B -> M C) w s :
  bind (bind m f) g w s = bind m (fun a => bind (f a) g) w s.
Proof. unfold bind. destruct (m w s); reflexivity. Qed.

Lemma lookup_past (h l : list obj) (k : nat) :
  (h ++ l) !! (length h + k)%nat = l !! k.
Proof. rewrite lookup_app_r by lia. f_equal. lia. Qed.

Lemma session_eq s1 s2 :
  heap s1 = heap s2 -> output s1 = output s2 -> calls s1 = calls s2 ->
  effects s1 = effects s2 -> s1 = s2.
Proof. destruct s1, s2; simpl; intros; subst; reflexivity. Qed.

Lemma bind_ret {A B} (a : A) (k : A -> M B) w s : bind (ret a) k w s = k a w s.
Proof. reflexivity. Qed.

Lemma bind_set_output {B} filename (k : unit -> M B) w s :
  bind (set_output filename) k w s =
    k tt w {| heap := heap s; output := Some filename;
              calls := calls s; effects := effects s |}.
Proof. reflexivity. Qed.

Lemma bind_alloc {B} o (k : ref -> M B) w s :
  bind (alloc o) k w s =
    k (length (heap s)) w
      {| heap := heap s ++ [o]; output := output s;
         calls := calls s; effects := effects s |}.
Proof. reflexivity. Qed.

Lemma lookup_source (h l : list obj) o : (h ++ o :: l) !! length h = Some o.
Proof. apply list_lookup_middle. reflexivity. Qed.

(** The figure of the script, shown from the store the script builds. *)
Lemma snapshot_script_objects (h : list obj) :
  snapshot (h ++ script_objects (length h)) (length h + 2) = Some plot_document.
Proof.
  unfold snapshot, script_objects. rewrite lookup_past.
  cbn [lookup list_lookup tools renderers plot_width plot_height title mapM].
  unfold tool_template at 1. rewrite lookup_past.
  cbn [lookup list_lookup mbind option_bind mret option_ret].
  unfold bind_renderer at 1. cbn [gr_source gr_glyph gr_x gr_y gr_size].
  rewrite lookup_source. reflexivity.
Qed.

Ltac run_call :=
  rewrite bind_libcall;
  match goal with
  | |- context [raises ?w ?c] => destruct (raises w c) as [?e|] eqn:?
  end.

Ltac same_session :=
  cbn [option_fmap option_map fmap prod_map fst snd id];
  f_equal; apply session_eq; cbn; rewrite ?app_nil_r, <- ?app_assoc; reflexivity.

Lemma script_outcome w s0 :
  script w s0 =
    match first_failure w (script_calls (length (heap s0))) with
    | Some (k, e) => Raise e (interrupted k s0)
    | None => Ok tt (progress 8 s0)
    end.
Proof.
  unfold script, script_calls, first_failure.
  unfold import_from, output_file, ColumnDataSource, HoverTool, figure, circle, show.
  run_call; [same_session|]. rewrite bind_ret.
  run_call; [same_session|]. rewrite bind_ret.
  run_call; [same_session|]. rewrite bind_set_output.
  run_call; [same_session|]. rewrite bind_alloc.
  cbn [heap log_call output calls effects].
  run_call; [same_session|]. rewrite bind_alloc.
  cbn [heap log_call output calls effects].
  rewrite <- !app_assoc. cbn [app]. rewrite !length_app. cbn [length].
  run_call; [same_session|]. rewrite bind_alloc.
  cbn [heap log_call output calls effects].
  rewrite <- !app_assoc. cbn [app]. rewrite !length_app. cbn [length].
  run_call; [same_session|].
  unfold bind at 1. cbn [heap log_call output calls effects].
  rewrite (lookup_past _ _ 2). cbn [lookup list_lookup].
  rewrite insert_app_r. unfold add_renderer.
  cbn [insert list_insert renderers plot_width plot_height tools title app].
  fold (script_objects (length (heap s0))).
  unfold libcall.
  destruct (raises w (ReqShow _)) as [e|] eqn:?; [same_session|].
  cbn [heap log_call output calls effects].
  rewrite snapshot_script_objects.
  unfold emit. same_session.
Qed.

Lemma first_failure_healthy w cs : healthy w -> first_failure w cs = None.
Proof.
  intros Hw. induction cs as [|c cs IH]; simpl; [reflexivity|].
  rewrite Hw, IH. reflexivity.
Qed.

(** With a library that rejects nothing the script runs to its end. *)
Lemma script_healthy w s0 : healthy w -> script w s0 = Ok tt (progress 8 s0).
Proof.
  intros Hw. rewrite script_outcome, first_failure_healthy by assumption.
  reflexivity.
Qed.

Lemma quiet_healthy : healthy quiet.
Proof. intros c. reflexivity. Qed.

Lemma noisy_healthy : healthy noisy.
Proof. intros c. reflexivity. Qed.

Lemma record_set_progress s0 :
  record_set (progress 8 s0) (length (heap s0)) = Some data.
Proof.
  unfold record_set, progress. cbn [heap].
  change (objects_after (length (heap s0)) 8) with (script_objects (length (heap s0))).
  unfold script_objects. rewrite lookup_source. reflexivity.
Qed.

(** ** The record set *)

Lemma data_lookup name col :
  data !! name = Some col ->
  (name = "x" /\ col = x) \/ (name = "y" /\ col = y) \/
  (name = "desc" /\ col = desc) \/ (name = "imgs" /\ col = imgs).
Proof.
  unfold data. intros H.
  repeat (apply lookup_insert_Some in H as [[<- <-]|[_ H]]; [tauto|]).
  rewrite lookup_empty in H. discriminate.
Qed.

Lemma data_dom : dom data = ({["x"; "y"; "desc"; "imgs"]} : gset string).
Proof. unfold data. rewrite !dom_insert_L, dom_empty_L. set_solver. Qed.

(** C1: the record set the script constructs has the four columns x, y,
    desc and imgs, and every one of them has length 5. *)
Theorem record_set_columns_length_5 w s0 :
  healthy w ->
  exists s1 d,
    script w s0 = Ok tt s1 /\
    record_set s1 (length (heap s0)) = Some d /\
    dom d = ({["x"; "y"; "desc"; "imgs"]} : gset string) /\
    (forall name col, d !! name = Some col -> length col = 5%nat) /\
    length <$> d !! "x" = Some 5%nat /\ length <$> d !! "y" = Some 5%nat /\
    length <$> d !! "desc" = Some 5%nat /\ length <$> d !! "imgs" = Some 5%nat.
Proof.
  intros Hw. exists (progress 8 s0), data.
  split; [apply script_healthy, Hw|].
  split; [apply record_set_progress|].
  split; [apply data_dom|].
  split; [|repeat split; reflexivity].
  intros name col H.
  destruct (data_lookup _ _ H) as [[_ ->]|[[_ ->]|[[_ ->]|[_ ->]]]]; reflexivity.
Qed.

Lemma record_set_columns_length_5_witness :
  exists s1 d,
    script quiet fresh_kernel = Ok tt s1 /\
    record_set s1 0 = Some d /\
    dom d = ({["x"; "y"; "desc"; "imgs"]} : gset string) /\
    (forall name col, d !! name = Some col -> length col = 5%nat) /\
    length <$> d !! "x" = Some 5%nat /\ length <$> d !! "y" = Some 5%nat /\
    length <$> d !! "desc" = Some 5%nat /\ length <$> d !! "imgs" = Some 5%nat.
Proof. apply (record_set_columns_length_5 quiet fresh_kernel quiet_healthy). Defined.

(** C2: for every index i from 0 to 4, row i of the record set the script
    constructs is the tuple of the entries at position i of the literal
    columns x, y, desc and imgs. *)
Theorem record_set_rows_aligned w s0 i :
  healthy w ->
  (i < 5)%nat ->
  exists s1 d xi yi di ui,
    script w s0 = Ok tt s1 /\
    record_set s1 (length (heap s0)) = Some d /\
    [PyInt 1; PyInt 2; PyInt 3; PyInt 4; PyInt 5] !! i = Some xi /\
    [PyInt 2; PyInt 5; PyInt 8; PyInt 2; PyInt 7] !! i = Some yi /\
    [PyStr "A"; PyStr "b"; PyStr "C"; PyStr "d"; PyStr "E"] !! i = Some di /\
    imgs !! i = Some ui /\
    row d i = Some (xi, yi, di, ui).
Proof.
  intros Hw Hi. exists (progress 8 s0), data.
  do 5 (destruct i as [|i]; [do 4 eexists; repeat split;
          [apply script_healthy, Hw | apply record_set_progress]|]).
  lia.
Qed.

Lemma record_set_rows_aligned_witness :
  exists s1 d xi yi di ui,
    script quiet fresh_kernel = Ok tt s1 /\
    record_set s1 0 = Some d /\
    [PyInt 1; PyInt 2; PyInt 3; PyInt 4; PyInt 5] !! 3%nat = Some xi /\
    [PyInt 2; PyInt 5; PyInt 8; PyInt 2; PyInt 7] !! 3%nat = Some yi /\
    [PyStr "A"; PyStr "b"; PyStr "C"; PyStr "d"; PyStr "E"] !! 3%nat = Some di /\
    imgs !! 3%nat = Some ui /\
    row d 3 = Some (xi, yi, di, ui).
Proof.
  apply (record_set_rows_aligned quiet fresh_kernel 3 quiet_healthy). lia.
Defined.

(** ** Exchange of rows *)

Section swap.
Context {A B C : Type} (f : A -> B -> C).

Lemma swap_Permutation (i j : nat) (l : list A) : swap i j l ≡ₚ l.
Proof.
  unfold swap.
  destruct (l !! i) as [a|] eqn:Hi; [|reflexivity].
  destruct (l !! j) as [b|] eqn:Hj; [|reflexivity].
  apply Permutation_insert_swap; assumption.
Qed.

Lemma insert_zip_with (xs : list A) (ys : list B) i a b :
  zip_with f (<[i:=a]> xs) (<[i:=b]> ys) = <[i:=f a b]> (zip_with f xs ys).
Proof.
  revert ys i.
  induction xs as [|x0 xs IH]; intros [|y0 ys] [|i]; simpl; try reflexivity.
  f_equal. apply IH.
Qed.

Lemma swap_zip_with (xs : list A) (ys : list B) i j :
  length xs = length ys ->
  zip_with f (swap i j xs) (swap i j ys) = swap i j (zip_with f xs ys).
Proof.
  intros Hlen. unfold swap. rewrite !lookup_zip_with.
  destruct (xs !! i) as [a|] eqn:Hxi; simpl.
  - destruct (lookup_lt_is_Some_2 ys i) as [a' Hyi].
    { rewrite <- Hlen. eapply lookup_lt_Some, Hxi. }
    rewrite Hyi. simpl.
    destruct (xs !! j) as [b|] eqn:Hxj; simpl.
    + destruct (lookup_lt_is_Some_2 ys j) as [b' Hyj].
      { rewrite <- Hlen. eapply lookup_lt_Some, Hxj. }
      rewrite Hyj. simpl. rewrite !insert_zip_with. reflexivity.
    + apply lookup_ge_None in Hxj. rewrite Hlen in Hxj.
      apply lookup_ge_None in Hxj. rewrite Hxj. reflexivity.
  - apply lookup_ge_None in Hxi. rewrite Hlen in Hxi.
    apply lookup_ge_None in Hxi. rewrite Hxi. reflexivity.
Qed.
End swap.

(** Row [i] after the exchange is row [j] before it. *)
Lemma swap_lookup {A} (l : list A) i j :
  (i < length l)%nat -> (j < length l)%nat -> swap i j l !! i = l !! j.
Proof.
  intros Hi Hj. unfold swap.
  destruct (lookup_lt_is_Some_2 l i Hi) as [a Ha].
  destruct (lookup_lt_is_Some_2 l j Hj) as [b Hb].
  rewrite Ha, Hb. rewrite list_lookup_insert_eq by (rewrite length_insert; lia).
  reflexivity.
Qed.

(** For a renderer whose two coordinate columns are equally long, the
    exchange of two rows permutes the markers. *)
Lemma render_swap_rows (r : bound_renderer) i j :
  length <$> br_data r !! br_x r = length <$> br_data r !! br_y r ->
  render (with_data (swap_rows i j (br_data r)) r) ≡ₚ render r.
Proof.
  unfold render, with_data, swap_rows. cbn [br_data br_x br_y br_glyph br_size].
  rewrite !lookup_fmap.
  destruct (br_data r !! br_x r) as [xs|], (br_data r !! br_y r) as [ys|];
    simpl; try discriminate; try reflexivity.
  intros [= Hlen]. rewrite swap_zip_with by assumption.
  apply swap_Permutation.
Qed.

(** C4: for every pair of positions i and j, the document of the script
    with rows i and j exchanged in the record set yields the same multiset
    of markers as the document itself. *)
Theorem swap_rows_same_markers (i j : nat) :
  markers (swap_document_rows i j plot_document) ≡ₚ markers plot_document.
Proof.
  unfold markers, swap_document_rows, plot_document.
  cbn [doc_renderers fmap list_fmap mbind list_bind].
  rewrite !app_nil_r. apply render_swap_rows. reflexivity.
Qed.

Example swap_rows_1_3 :
  render (with_data (swap_rows 1 3 data) circle_renderer) =
    [ Marker Circle (PyInt 1) (PyInt 2) 20; Marker Circle (PyInt 4) (PyInt 2) 20;
      Marker Circle (PyInt 3) (PyInt 8) 20; Marker Circle (PyInt 2) (PyInt 5) 20;
      Marker Circle (PyInt 5) (PyInt 7) 20 ].
Proof. vm_compute. reflexivity. Qed.

Lemma swap_rows_row i j :
  (i < 5)%nat -> (j < 5)%nat -> row (swap_rows i j data) i = row data j.
Proof.
  intros Hi Hj.
  do 5 (destruct i as [|i];
        [do 5 (destruct j as [|j]; [vm_compute; reflexivity|]); lia|]).
  lia.
Qed.

(** ** Determinism and independence of the world *)

Lemma first_failure_ext w1 w2 cs :
  (forall c, raises w1 c = raises w2 c) ->
  first_failure w1 cs = first_failure w2 cs.
Proof.
  intros Hr. induction cs as [|c cs IH]; simpl; [reflexivity|].
  rewrite Hr, IH. reflexivity.
Qed.

(** The outcome of the script depends on the world through the failures of
    the library only. *)
Lemma script_world_irrelevant w1 w2 s :
  (forall c, raises w1 c = raises w2 c) -> script w1 s = script w2 s.
Proof.
  intros Hr. rewrite !script_outcome, (first_failure_ext w1 w2) by assumption.
  reflexivity.
Qed.


(** C3: two runs of the script, in worlds that differ in command line,
    environment variables, files and default file name, and from sessions
    that differ in what earlier runs left behind, request the same
    artifact: the same file name and the same document (rows, field names,
    field bindings, figure configuration).  On one session the two worlds
    give the same outcome altogether. *)
Theorem script_deterministic_input_free w1 w2 s1 s2 :
  healthy w1 -> healthy w2 ->
  script w1 s1 = script w2 s1 /\
  exists s1' s2',
    script w1 s1 = Ok tt s1' /\ script w2 s2 = Ok tt s2' /\
    effects s1' = effects s1 ++ [WriteHtml "toolbar.html" plot_document] /\
    effects s2' = effects s2 ++ [WriteHtml "toolbar.html" plot_document] /\
    output s1' = output s2' /\
    record_set s1' (length (heap s1)) = record_set s2' (length (heap s2)).
Proof.
  intros H1 H2. split.
  - apply script_world_irrelevant. intros c. rewrite H1, H2. reflexivity.
  - exists (progress 8 s1), (progress 8 s2).
    rewrite !script_healthy, !record_set_progress by assumption.
    repeat split; reflexivity.
Qed.

Lemma script_deterministic_input_free_witness :
  script quiet fresh_kernel = script noisy fresh_kernel /\
  exists s1' s2',
    script quiet fresh_kernel = Ok tt s1' /\
    script noisy (progress 8 fresh_kernel) = Ok tt s2' /\
    effects s1' = effects fresh_kernel ++ [WriteHtml "toolbar.html" plot_document] /\
    effects s2' = effects (progress 8 fresh_kernel)
                    ++ [WriteHtml "toolbar.html" plot_document] /\
    output s1' = output s2' /\
    record_set s1' (length (heap fresh_kernel)) =
      record_set s2' (length (heap (progress 8 fresh_kernel))).
Proof.
  apply (script_deterministic_input_free quiet noisy fresh_kernel
           (progress 8 fresh_kernel) quiet_healthy noisy_healthy).
Defined.

(** ** The output artifact *)

Lemma output_file_calls n f :
  ReqOutputFile f ∈ script_calls n -> f = "toolbar.html".
Proof.
  unfold script_calls. rewrite !elem_of_cons, elem_of_nil.
  intros H. repeat (destruct H as [H|H]; [congruence|]). contradiction.
Qed.

(** C5: the script requests one artifact, an HTML file named toolbar.html;
    the name has no directory part, so the file is in the working
    directory; [output_file] is called with no other name. *)
Theorem one_artifact_toolbar_html w s0 :
  healthy w ->
  exists s1,
    script w s0 = Ok tt s1 /\
    effects s1 = effects s0 ++ [WriteHtml "toolbar.html" plot_document] /\
    output s1 = Some "toolbar.html" /\
    contains "/" "toolbar.html" = false /\
    forall f, ReqOutputFile f ∈ calls s1 -> ReqOutputFile f ∈ calls s0 \/ f = "toolbar.html".
Proof.
  intros Hw. exists (progress 8 s0).
  split; [apply script_healthy, Hw|].
  repeat split.
  intros f. unfold progress. cbn [calls]. rewrite elem_of_app.
  intros [H|H]; [left; exact H|right].
  apply (output_file_calls (length (heap s0))). exact H.
Qed.

Lemma one_artifact_toolbar_html_witness :
  exists s1,
    script noisy fresh_kernel = Ok tt s1 /\
    effects s1 = effects fresh_kernel ++ [WriteHtml "toolbar.html" plot_document] /\
    output s1 = Some "toolbar.html" /\
    contains "/" "toolbar.html" = false /\
    forall f, ReqOutputFile f ∈ calls s1 ->
              ReqOutputFile f ∈ calls fresh_kernel \/ f = "toolbar.html".
Proof. apply (one_artifact_toolbar_html noisy fresh_kernel noisy_healthy). Defined.

Example fresh_run_effects :
  effects (final_session (script quiet fresh_kernel)) =
    [WriteHtml "toolbar.html" plot_document].
Proof. rewrite (script_healthy _ _ quiet_healthy). reflexivity. Qed.

(** ** The figure *)

(** C7: after the script the figure has width 400, height 400 and title
    Mouse over the dots; its tools are the one hover tool, which carries the
    tooltip template; its renderers are the one circle renderer of size 20
    on columns x and y of the data source, and both columns exist there. *)
Theorem figure_configuration w s0 :
  healthy w ->
  let n := length (heap s0) in
  exists s1,
    script w s0 = Ok tt s1 /\
    heap s1 !! (n + 2)%nat =
      Some (FigureObj {| plot_width := 400; plot_height := 400;
                         tools := [(n + 1)%nat];
                         title := "Mouse over the dots";
                         renderers := [GlyphRenderer Circle "x" "y" 20 n] |}) /\
    heap s1 !! (n + 1)%nat = Some (HoverToolObj tooltips) /\
    record_set s1 n = Some data /\
    is_Some (data !! "x") /\ is_Some (data !! "y") /\
    snapshot (heap s1) (n + 2) = Some plot_document.
Proof.
  intros Hw n. exists (progress 8 s0).
  split; [apply script_healthy, Hw|].
  split; [apply lookup_past|].
  split; [apply lookup_past|].
  split; [apply record_set_progress|].
  split; [eexists; reflexivity|].
  split; [eexists; reflexivity|].
  apply snapshot_script_objects.
Qed.

Lemma figure_configuration_witness :
  exists s1,
    script quiet fresh_kernel = Ok tt s1 /\
    heap s1 !! 2%nat =
      Some (FigureObj {| plot_width := 400; plot_height := 400;
                         tools := [1%nat];
                         title := "Mouse over the dots";
                         renderers := [GlyphRenderer Circle "x" "y" 20 0] |}) /\
    heap s1 !! 1%nat = Some (HoverToolObj tooltips) /\
    record_set s1 0 = Some data /\
    is_Some (data !! "x") /\ is_Some (data !! "y") /\
    snapshot (heap s1) 2 = Some plot_document.
Proof. apply (figure_configuration quiet fresh_kernel quiet_healthy). Defined.

(** ** The record set is not modified *)

Lemma record_set_Some s src d :
  record_set s src = Some d <-> heap s !! src = Some (ColumnDataSourceObj d).
Proof.
  unfold record_set. split.
  - destruct (heap s !! src) as [[d'| |]|]; intros [= ->]; reflexivity.
  - intros ->. reflexivity.
Qed.

Section frame.
Variables (src : ref) (d : pydict).

Lemma keeps_bind {A B} (m : M A) (k : A -> M B) :
  keeps src d m -> (forall a, keeps src d (k a)) -> keeps src d (bind m k).
Proof.
  intros Hm Hk w s Hs. unfold bind.
  specialize (Hm w s Hs). destruct (m w s) as [a s'|e s']; simpl in Hm.
  - apply Hk, Hm.
  - exact Hm.
Qed.

Lemma keeps_libcall {A} c (body : M A) :
  keeps src d body -> keeps src d (libcall c body).
Proof.
  intros Hb w s Hs. unfold libcall.
  destruct (raises w c); [exact Hs|].
  apply Hb. exact Hs.
Qed.

Lemma keeps_alloc o : keeps src d (alloc o).
Proof.
  intros w s Hs. apply record_set_Some in Hs. apply record_set_Some.
  simpl. apply lookup_app_l_Some, Hs.
Qed.

Lemma keeps_HoverTool tips : keeps src d (HoverTool tips).
Proof. apply keeps_libcall, keeps_alloc. Qed.

Lemma keeps_figure w h tls ttl : keeps src d (figure w h tls ttl).
Proof. apply keeps_libcall, keeps_alloc. Qed.

(** [circle] writes the store at the figure only, and a data source is
    not a figure. *)
Lemma keeps_circle p cx cy size source : keeps src d (circle p cx cy size source).
Proof.
  apply keeps_libcall. intros w s Hs.
  destruct (heap s !! p) as [[d'|tips|f]|] eqn:Hp; try exact Hs.
  apply record_set_Some in Hs. apply record_set_Some. simpl.
  rewrite list_lookup_insert_ne; [exact Hs|].
  intros ->. congruence.
Qed.

Lemma keeps_show p : keeps src d (show p).
Proof.
  apply keeps_libcall. intros w s Hs.
  destruct (snapshot (heap s) p); exact Hs.
Qed.

Lemma keeps_after_source source : keeps src d (after_source source).
Proof.
  unfold after_source.
  apply keeps_bind; [apply keeps_HoverTool|intros hover].
  apply keeps_bind; [apply keeps_figure|intros p].
  apply keeps_bind; [apply keeps_circle|intros _].
  apply keeps_show.
Qed.
End frame.

Lemma script_split w s : script w s = bind construct_source after_source w s.
Proof.
  unfold script, construct_source, after_source, bind.
  repeat match goal with
         | |- context [import_from ?m ?ns ?w ?s] => destruct (import_from m ns w s)
         | |- context [output_file ?f ?w ?s] => destruct (output_file f w s)
         end; reflexivity.
Qed.

Lemma construct_source_Ok w s0 source s1 :
  construct_source w s0 = Ok source s1 ->
  source = length (heap s0) /\ s1 = progress 4 s0.
Proof.
  unfold construct_source, import_from, output_file, ColumnDataSource.
  run_call; [discriminate|]. rewrite bind_ret.
  run_call; [discriminate|]. rewrite bind_ret.
  run_call; [discriminate|]. rewrite bind_set_output.
  unfold libcall. destruct (raises w (ReqColumnDataSource data)); [discriminate|].
  unfold alloc. intros [= <- <-]. split; [reflexivity|].
  apply session_eq; cbn; rewrite ?app_nil_r, <- ?app_assoc; reflexivity.
Qed.

(** C6: once [ColumnDataSource] has returned the data source, the rest of
    the script (hover tool, figure, circle renderer, show) leaves its
    record set as it is, whether the rest returns or raises; and the
    document that is emitted binds that same record set. *)
Theorem record_set_not_modified w s0 source s1 :
  construct_source w s0 = Ok source s1 ->
  record_set s1 source = Some data /\
  script w s0 = after_source source w s1 /\
  record_set (final_session (after_source source w s1)) source = Some data /\
  forall s2,
    after_source source w s1 = Ok tt s2 ->
    exists doc,
      effects s2 = effects s1 ++ [WriteHtml "toolbar.html" doc] /\
      br_data <$> doc_renderers doc = [data].
Proof.
  intros Hc.
  assert (Hs : script w s0 = after_source source w s1).
  { rewrite script_split. unfold bind. rewrite Hc. reflexivity. }
  destruct (construct_source_Ok _ _ _ _ Hc) as [-> ->].
  assert (Hd : record_set (progress 4 s0) (length (heap s0)) = Some data).
  { apply record_set_Some. apply lookup_source. }
  split; [exact Hd|]. split; [exact Hs|].
  split; [apply keeps_after_source, Hd|].
  intros s2 H2. rewrite <- Hs, script_outcome in H2.
  destruct (first_failure w _) as [[k e]|]; [discriminate|].
  injection H2 as <-. exists plot_document. split; reflexivity.
Qed.

Lemma record_set_not_modified_witness :
  record_set (progress 4 fresh_kernel) 0 = Some data /\
  script quiet fresh_kernel = after_source 0 quiet (progress 4 fresh_kernel) /\
  record_set (final_session (after_source 0 quiet (progress 4 fresh_kernel))) 0
    = Some data /\
  forall s2,
    after_source 0 quiet (progress 4 fresh_kernel) = Ok tt s2 ->
    exists doc,
      effects s2 = effects (progress 4 fresh_kernel)
                     ++ [WriteHtml "toolbar.html" doc] /\
      br_data <$> doc_renderers doc = [data].
Proof.
  apply (record_set_not_modified quiet fresh_kernel 0 (progress 4 fresh_kernel)).
  reflexivity.
Defined.

(** ** Failures of the library *)

Lemma first_failure_Some w cs k c e :
  cs !! k = Some c ->
  raises w c = Some e ->
  (forall i c', (i < k)%nat -> cs !! i = Some c' -> raises w c' = None) ->
  first_failure w cs = Some (k, e).
Proof.
  revert k. induction cs as [|c0 cs IH]; intros k Hk He Hbefore.
  - discriminate.
  - destruct k as [|k]; simpl in *.
    + injection Hk as ->. rewrite He. reflexivity.
    + rewrite (Hbefore 0%nat c0) by (reflexivity || lia).
      rewrite (IH k Hk He); [reflexivity|].
      intros i c' Hi Hc'. apply (Hbefore (S i)); [lia|exact Hc'].
Qed.

Lemma first_failure_inv w cs k e :
  first_failure w cs = Some (k, e) ->
  exists c, cs !! k = Some c /\ raises w c = Some e /\
            forall i c', (i < k)%nat -> cs !! i = Some c' -> raises w c' = None.
Proof.
  revert k. induction cs as [|c0 cs IH]; intros k; simpl; [discriminate|].
  destruct (raises w c0) as [e0|] eqn:H0.
  - intros [= <- <-]. exists c0. repeat split; [exact H0|]. intros i c' Hi. lia.
  - destruct (first_failure w cs) as [[k' e']|]; [|discriminate].
    intros [= <- <-]. destruct (IH k' eq_refl) as (c & Hc & He & Hbefore).
    exists c. repeat split; [exact Hc|exact He|].
    intros [|i] c' Hi Hc'; simpl in Hc'.
    + injection Hc' as <-. exact H0.
    + apply (Hbefore i); [lia|exact Hc'].
Qed.

(** An exception that leaves the script is one the library raised. *)
Lemma script_raises_only_library w s0 e s1 :
  script w s0 = Raise e s1 ->
  exists k c, script_calls (length (heap s0)) !! k = Some c /\
              raises w c = Some e /\ s1 = interrupted k s0.
Proof.
  rewrite script_outcome.
  destruct (first_failure w _) as [[k e']|] eqn:Hf; [|discriminate].
  intros [= <- <-]. destruct (first_failure_inv _ _ _ _ Hf) as (c & Hc & He & _).
  exists k, c. repeat split; assumption.
Qed.

(** C8: when a library call of the script raises (the calls before it
    having returned), the script ends with that very exception; the calls
    made are those up to and including the failing one, none after it,
    and nothing is emitted. *)
Theorem library_failure_propagates w s0 k c e :
  script_calls (length (heap s0)) !! k = Some c ->
  raises w c = Some e ->
  (forall i c', (i < k)%nat -> script_calls (length (heap s0)) !! i = Some c' ->
                raises w c' = None) ->
  exists s1,
    script w s0 = Raise e s1 /\
    calls s1 = calls s0 ++ take (S k) (script_calls (length (heap s0))) /\
    length (calls s1) = (length (calls s0) + S k)%nat /\
    effects s1 = effects s0.
Proof.
  intros Hk He Hbefore. exists (interrupted k s0).
  rewrite script_outcome, (first_failure_Some _ _ _ _ _ Hk He Hbefore).
  repeat split. unfold interrupted. cbn [calls].
  rewrite length_app, length_take. apply lookup_lt_Some in Hk. lia.
Qed.

Lemma library_failure_propagates_witness :
  exists s1,
    script read_only_dir fresh_kernel = Raise permission_denied s1 /\
    calls s1 = calls fresh_kernel
                 ++ take 8 (script_calls (length (heap fresh_kernel))) /\
    length (calls s1) = (length (calls fresh_kernel) + 8)%nat /\
    effects s1 = effects fresh_kernel.
Proof.
  apply (library_failure_propagates read_only_dir fresh_kernel 7 (ReqShow 2)
           permission_denied).
  - reflexivity.
  - reflexivity.
  - intros i c' Hi Hc'.
    do 7 (destruct i as [|i]; [injection Hc' as <-; reflexivity|]). lia.
Defined.

Example bad_template_stops_at_HoverTool :
  exists s1,
    script bad_template fresh_kernel = Raise (Exn "ValueError" "tooltips") s1 /\
    heap s1 = [ColumnDataSourceObj data] /\ length (calls s1) = 5%nat /\
    effects s1 = [].
Proof.
  eexists. rewrite script_outcome. simpl first_failure. repeat split.
Qed.

(** ** Network and strings *)

Lemma import_calls n m names :
  ReqImport m names ∈ script_calls n -> m = "bokeh.plotting" \/ m = "bokeh.models".
Proof.
  unfold script_calls. rewrite !elem_of_cons, elem_of_nil.
  intros H.
  repeat (destruct H as [H|H]; [first [discriminate | injection H as -> _; tauto]|]).
  contradiction.
Qed.

Lemma dict_strings_urls s :
  s ∈ dict_strings data -> mentions_url s = true -> PyStr s ∈ imgs.
Proof.
  intros Hs Hu.
  assert (Hall : forallb (fun s => negb (mentions_url s) || bool_decide (PyStr s ∈ imgs))
                   (dict_strings data) = true) by (vm_compute; reflexivity).
  rewrite forallb_forall in Hall. apply list_elem_of_In, Hall in Hs.
  rewrite Hu in Hs. simpl in Hs. apply bool_decide_eq_true in Hs. exact Hs.
Qed.

Lemma script_effects w s0 :
  effects (final_session (script w s0)) = effects s0 \/
  effects (final_session (script w s0)) =
    effects s0 ++ [WriteHtml "toolbar.html" plot_document].
Proof.
  rewrite script_outcome. destruct (first_failure w _) as [[k e]|].
  - left. reflexivity.
  - right. reflexivity.
Qed.

(** C9: the script imports the plotting library only and calls nothing
    else; its external effect is at most the one HTML file; among all the
    strings it hands to the library, those that hold a URL are the entries
    of the imgs column, passed as data; the tooltip markup holds no URL and
    refers to the column by the placeholder @imgs. *)
Theorem script_no_network w s0 :
  let n := length (heap s0) in
  (forall m names, ReqImport m names ∈ script_calls n ->
                   m = "bokeh.plotting" \/ m = "bokeh.models") /\
  (effects (final_session (script w s0)) = effects s0 \/
   effects (final_session (script w s0)) =
     effects s0 ++ [WriteHtml "toolbar.html" plot_document]) /\
  (forall c s, c ∈ script_calls n -> s ∈ request_strings c ->
               mentions_url s = true ->
               c = ReqColumnDataSource data /\ PyStr s ∈ imgs) /\
  Forall (fun v => exists s, v = PyStr s /\ mentions_url s = true) imgs /\
  mentions_url tooltips = false /\
  Field "imgs" ∈ placeholders tooltips.
Proof.
  intros n.
  split; [apply import_calls|].
  split; [apply script_effects|].
  split.
  { intros c s Hc Hs Hu. unfold script_calls in Hc.
    rewrite !elem_of_cons, elem_of_nil in Hc.
    destruct Hc as [->|[->|[->|[->|[->|[->|[->|[->|[]]]]]]]]];
      cbn [request_strings] in Hs.
    4: { split; [reflexivity|]. apply dict_strings_urls; assumption. }
    all: exfalso; rewrite ?elem_of_cons, elem_of_nil in Hs;
      repeat (destruct Hs as [Hs|Hs]; [subst s; vm_compute in Hu; discriminate|]);
      exact Hs. }
  split.
  { unfold imgs. repeat (constructor; [eexists; split; [reflexivity|vm_compute; reflexivity]|]).
    constructor. }
  split; [vm_compute; reflexivity|].
  replace (placeholders tooltips)
    with [Field "imgs"; Field "imgs"; Field "desc"; Special "index";
          Special "x"; Special "y"] by (vm_compute; reflexivity).
  apply list_elem_of_here.
Qed.

(** ** The tooltip template *)

Lemma placeholders_tooltips :
  placeholders tooltips =
    [Field "imgs"; Field "imgs"; Field "desc";
     Special "index"; Special "x"; Special "y"].
Proof. vm_compute. reflexivity. Qed.

(** C10: the placeholders of the tooltip template are @imgs (twice), @desc,
    $index, $x and $y; every @-placeholder names a column of the record set,
    every $-placeholder is a special variable of the library, and at every
    row index below 5 each placeholder resolves to a value. *)
Theorem tooltip_placeholders_resolve (pt : hover_point) :
  (hp_index pt < 5)%nat ->
  placeholders tooltips =
    [Field "imgs"; Field "imgs"; Field "desc";
     Special "index"; Special "x"; Special "y"] /\
  (forall name, Field name ∈ placeholders tooltips -> name ∈ dom data) /\
  (forall name, Special name ∈ placeholders tooltips -> name ∈ special_vars) /\
  Forall (fun ph => is_Some (resolve data pt ph)) (placeholders tooltips).
Proof.
  intros Hi. rewrite placeholders_tooltips.
  split; [reflexivity|]. split; [|split].
  - intros name. rewrite !elem_of_cons, elem_of_nil, data_dom.
    intros H.
    repeat (destruct H as [H|H]; [first [discriminate | injection H as ->; set_solver]|]).
    contradiction.
  - intros name. rewrite !elem_of_cons, elem_of_nil. unfold special_vars.
    intros H.
    repeat (destruct H as [H|H]; [first [discriminate | injection H as ->; set_solver]|]).
    contradiction.
  - destruct pt as [i qx qy]. simpl in Hi.
    do 5 (destruct i as [|i]; [repeat constructor; eexists; reflexivity|]).
    lia.
Qed.

Lemma tooltip_placeholders_resolve_witness :
  placeholders tooltips =
    [Field "imgs"; Field "imgs"; Field "desc";
     Special "index"; Special "x"; Special "y"] /\
  (forall name, Field name ∈ placeholders tooltips -> name ∈ dom data) /\
  (forall name, Special name ∈ placeholders tooltips -> name ∈ special_vars) /\
  Forall (fun ph => is_Some (resolve data (HoverPoint 3 (7 # 2) (9 # 4)) ph))
         (placeholders tooltips).
Proof.
  apply (tooltip_placeholders_resolve (HoverPoint 3 (7 # 2) (9 # 4))).
  simpl. lia.
Defined.

(** * Further properties of the cell *)

(** ** What a run leaves in the session *)

Lemma objects_after_length n k : (length (objects_after n k) <= 3)%nat.
Proof. do 7 (destruct k as [|k]; [simpl; lia|]). simpl. lia. Qed.

Lemma heap_final_session w s0 :
  exists k, heap (final_session (script w s0)) =
              heap s0 ++ objects_after (length (heap s0)) k.
Proof.
  rewrite script_outcome. destruct (first_failure w _) as [[k e]|].
  - exists k. reflexivity.
  - exists 8%nat. reflexivity.
Qed.

(** X1: whether the cell returns or raises, and whatever the session held
    before, every object that was in the store keeps its reference and its
    content; the cell only adds objects, three at most (the data source,
    the hover tool and the figure). *)
Theorem script_keeps_earlier_objects w s0 :
  let s1 := final_session (script w s0) in
  (forall (r : ref) (o : obj), heap s0 !! r = Some o -> heap s1 !! r = Some o) /\
  exists new, heap s1 = heap s0 ++ new /\ (length new <= 3)%nat.
Proof.
  intros s1. destruct (heap_final_session w s0) as [k Hk].
  fold s1 in Hk. split.
  - intros r o Hr. rewrite Hk. apply lookup_app_l_Some, Hr.
  - exists (objects_after (length (heap s0)) k).
    split; [exact Hk|apply objects_after_length].
Qed.

(** X2: an exception that leaves the cell was raised by the library in one
    of the eight calls of the cell, all calls before it having returned;
    the cell raises nothing of its own, as [p.circle] and [show(p)] are
    always given the figure the cell has just made. *)
Theorem script_exception_is_library_exception w s0 e s1 :
  script w s0 = Raise e s1 ->
  exists k c,
    script_calls (length (heap s0)) !! k = Some c /\
    raises w c = Some e /\
    (forall i c', (i < k)%nat -> script_calls (length (heap s0)) !! i = Some c' ->
                  raises w c' = None) /\
    calls s1 = calls s0 ++ take (S k) (script_calls (length (heap s0))).
Proof.
  rewrite script_outcome.
  destruct (first_failure w _) as [[k e']|] eqn:Hf; [|discriminate].
  intros [= <- <-].
  destruct (first_failure_inv _ _ _ _ Hf) as (c & Hc & He & Hbefore).
  exists k, c. repeat split; assumption.
Qed.

Lemma script_exception_is_library_exception_witness :
  exists k c,
    script_calls (length (heap fresh_kernel)) !! k = Some c /\
    raises read_only_dir c = Some permission_denied /\
    (forall i c', (i < k)%nat ->
                  script_calls (length (heap fresh_kernel)) !! i = Some c' ->
                  raises read_only_dir c' = None) /\
    calls (interrupted 7 fresh_kernel) =
      calls fresh_kernel ++ take (S k) (script_calls (length (heap fresh_kernel))).
Proof.
  apply (script_exception_is_library_exception read_only_dir fresh_kernel
           permission_denied (interrupted 7 fresh_kernel)).
  vm_compute. reflexivity.
Defined.

(** X3: nothing is rolled back when the cell fails.  If the two imports and
    [output_file] went through and a later call raises, the session is left
    with toolbar.html as its output file, whatever it was before, and no
    artifact has been written. *)
Theorem failed_run_keeps_output_target w s0 e s1 :
  script w s0 = Raise e s1 ->
  Forall (fun c => raises w c = None) (take 3 (script_calls (length (heap s0)))) ->
  output s1 = Some "toolbar.html" /\ effects s1 = effects s0.
Proof.
  rewrite script_outcome.
  destruct (first_failure w _) as [[k e']|] eqn:Hf; [|discriminate].
  intros [= <- <-] Hfirst.
  destruct (first_failure_inv _ _ _ _ Hf) as (c & Hc & He & _).
  split; [|reflexivity].
  unfold interrupted, progress. cbn [output].
  destruct (decide (k <= 2)%nat) as [Hk|Hk]; [|reflexivity].
  exfalso. rewrite Forall_lookup in Hfirst.
  rewrite (Hfirst k c) in He; [discriminate|].
  rewrite lookup_take_lt by lia. exact Hc.
Qed.

Lemma failed_run_keeps_output_target_witness :
  output fresh_kernel = None /\
  output (interrupted 7 fresh_kernel) = Some "toolbar.html" /\
  effects (interrupted 7 fresh_kernel) = effects fresh_kernel.
Proof.
  split; [reflexivity|].
  apply (failed_run_keeps_output_target read_only_dir fresh_kernel
           permission_denied (interrupted 7 fresh_kernel)).
  - vm_compute. reflexivity.
  - repeat constructor.
Defined.

(** ** Running the cell again *)


